(** * ai-tutor-bot: the memory store, the tutor agent and the API layer

    A shallow embedding of [backend/memory/vector_store.py],
    [backend/agents/tutor_agent.py] and [backend/api/main.py].

    Python exceptions are modelled by the [result] monad, the mutable
    objects held by the process ([vectorstore], [conversation_memory],
    [users_db]) by explicit state passing, and the two external services
    (the Ollama embedding model and the Ollama completion model) by the
    fields of a [Backend] record that every operation receives. *)

From Stdlib Require Import Ascii QArith.
From stdpp Require Import base decidable option list sorting strings gmap pretty.

Local Open Scope string_scope.
Local Open Scope list_scope.
Local Open Scope Z_scope.

(** ** Exceptions *)

Inductive result (A : Type) : Type :=
| Ok (a : A)
| Raise (e : string).
Arguments Ok {A} a.
Arguments Raise {A} e.

Definition bind {A B : Type} (r : result A) (f : A → result B) : result B :=
  match r with
  | Ok a => f a
  | Raise e => Raise e
  end.

Notation "'let*' x ':=' r 'in' k" := (bind r (λ x, k))
  (at level 10, x name, r at level 100, k at level 200, only parsing).

Definition is_Ok {A : Type} (r : result A) : Prop := ∃ a, r = Ok a.

(** ** Metadata

    A metadata dict maps string keys to scalars.  The source stores
    strings ([user_id], [type], [lesson_id]) and integers ([level]). *)

Inductive value : Type :=
| VStr (s : string)
| VInt (n : Z).

#[global] Instance value_eq_dec : EqDecision value.
Proof. solve_decision. Defined.

Abbreviation metadata_t := (gmap string value).

(** An embedding is a numeric vector; finite floats are rationals. *)
Abbreviation vector := (list Q).

(** The two external services.  [embed] is [OllamaEmbeddings], [llm] is
    the [Ollama] completion model, [distance] is the metric of the vector
    index.  Either service may raise. *)
Record Backend : Type := {
  embed : string → result vector;
  distance : vector → vector → Q;
  llm : string → result string
}.

(** No external failure: both services answer every request. *)
Definition available (env : Backend) : Prop :=
  (∀ text, is_Ok (embed env text)) ∧ (∀ prompt, is_Ok (llm env prompt)).

(** ** The vector store ([langchain.vectorstores.Chroma]) *)

Module Chroma.

Record Document : Type := {
  page_content : string;
  metadata : metadata_t;
  embedding : vector
}.

(** Modelled from the spec: the body of [Chroma.add_texts] is library
    code.  It computes an embedding for each text and persists the tuple
    (text, metadata, embedding); an embedding failure is propagated and
    nothing is written. *)
Fixpoint embed_documents (env : Backend) (texts : list string)
    (metadatas : list metadata_t) : result (list Document) :=
  match texts, metadatas with
  | text :: texts', md :: metadatas' =>
      let* v := embed env text in
      let* docs := embed_documents env texts' metadatas' in
      Ok ({| page_content := text; metadata := md; embedding := v |} :: docs)
  | _, _ => Ok []
  end.

Definition add_texts (env : Backend) (collection : list Document)
    (texts : list string) (metadatas : list metadata_t)
    : result (list Document) :=
  let* docs := embed_documents env texts metadatas in
  Ok (collection ++ docs).

(** Modelled from the spec: the filter of the similarity service is
    library code.  A document passes a filter when it carries every key of
    the filter with an equal value. *)
Definition matches (flt : metadata_t) (d : Document) : bool :=
  forallb (λ kv, bool_decide (metadata d !! kv.1 = Some kv.2))
          (map_to_list flt).

(** [closer q d1 d2]: [d1] is at least as similar to the query vector
    as [d2]. *)
Definition closer (env : Backend) (q : vector) : relation Document :=
  λ d1 d2, Qle (distance env q (embedding d1)) (distance env q (embedding d2)).

#[global] Instance closer_dec env q : RelDecision (closer env q).
Proof.
  intros d1 d2. unfold closer, Qle. apply _.
Defined.

(** Modelled from the spec: the body of [Chroma.similarity_search] is
    library code.  It embeds the query, restricts the collection to the
    documents that pass the filter, and returns the [k] nearest ones,
    most similar first. *)
Definition similarity_search (env : Backend) (collection : list Document)
    (query : string) (k : nat) (flt : metadata_t) : result (list Document) :=
  let* q := embed env query in
  Ok (take k (merge_sort (closer env q)
                (List.filter (matches flt) collection))).

End Chroma.

(** ** [MemoryManager] (backend/memory/vector_store.py) *)

Module MemoryManager.
Import Chroma.

(** The dict display [{"user_id": user_id, **metadata}]: the keys of
    [metadata] are written after [user_id] and win on a clash. *)
Definition user_metadata (user_id : string) (md : metadata_t) : metadata_t :=
  md ∪ {[ "user_id" := VStr user_id ]}.

Definition add_user_interaction (env : Backend) (vectorstore : list Document)
    (user_id interaction : string) (md : metadata_t)
    : result (list Document) :=
  add_texts env vectorstore [interaction] [user_metadata user_id md].

Definition user_filter (user_id : string) : metadata_t :=
  {[ "user_id" := VStr user_id ]}.

(** The [results] list of [get_user_context]. *)
Definition get_user_results (env : Backend) (vectorstore : list Document)
    (user_id query : string) (k : nat) : result (list Document) :=
  similarity_search env vectorstore query k (user_filter user_id).

(** [k] counts documents; the one call in the repository leaves it to
    its default, 5. *)
Definition get_user_context (env : Backend) (vectorstore : list Document)
    (user_id query : string) (k : nat) : result (list string) :=
  let* results := get_user_results env vectorstore user_id query k in
  Ok (page_content <$> results).

Definition lesson_metadata (lesson_id : string) : metadata_t :=
  <[ "type" := VStr "lesson" ]> {[ "lesson_id" := VStr lesson_id ]}.

Definition add_lesson_content (env : Backend) (vectorstore : list Document)
    (lesson_id content : string) : result (list Document) :=
  add_texts env vectorstore [content] [lesson_metadata lesson_id].

(** The two ways a record enters the store, as data: a history of the
    store is a list of such writes. *)
Inductive record_op : Type :=
| UserInteraction (user_id interaction : string) (md : metadata_t)
| LessonContent (lesson_id content : string).

Definition record (env : Backend) (vectorstore : list Document)
    (op : record_op) : result (list Document) :=
  match op with
  | UserInteraction user_id interaction md =>
      add_user_interaction env vectorstore user_id interaction md
  | LessonContent lesson_id content =>
      add_lesson_content env vectorstore lesson_id content
  end.

Fixpoint replay (env : Backend) (vectorstore : list Document)
    (ops : list record_op) : result (list Document) :=
  match ops with
  | [] => Ok vectorstore
  | op :: ops' =>
      let* vectorstore' := record env vectorstore op in
      replay env vectorstore' ops'
  end.

(** Where a stored document comes from. *)
Definition origin (d : Document) (op : record_op) : Prop :=
  match op with
  | UserInteraction user_id interaction md =>
      page_content d = interaction ∧ metadata d = user_metadata user_id md
  | LessonContent lesson_id content =>
      page_content d = content ∧ metadata d = lesson_metadata lesson_id
  end.

End MemoryManager.

(** ** [TutorAgent] (backend/agents/tutor_agent.py) *)

Module TutorAgent.
Import Chroma.

(** One exchange of the conversation: the human input and the AI output. *)
Abbreviation exchange := (string * string)%type.

(** [ConversationBufferWindowMemory(k=10)]. *)
Record ConversationBufferWindowMemory : Type := {
  window_k : nat;
  chat_memory : list exchange
}.

Definition render_exchange (e : exchange) : string :=
  "Human: " +:+ e.1 +:+ "
AI: " +:+ e.2.

(** Modelled from the spec: the [buffer] property is library code.  It
    renders the exchanges held by the window, oldest first. *)
Definition buffer (w : ConversationBufferWindowMemory) : string :=
  String.concat "
" (render_exchange <$> chat_memory w).

(** Modelled from the spec: [save_context] is library code.  It appends
    an exchange and keeps the most recent [window_k] ones, evicting the
    oldest first.  No function of the agent calls it. *)
Definition save_context (w : ConversationBufferWindowMemory) (e : exchange)
    : ConversationBufferWindowMemory :=
  let l := chat_memory w ++ [e] in
  {| window_k := window_k w;
     chat_memory := drop (length l - window_k w)%nat l |}.

(** The state held by a [TutorAgent] object: the vector store of its
    [memory_manager] and its [conversation_memory]. *)
Record t : Type := {
  memory_manager : list Document;
  conversation_memory : ConversationBufferWindowMemory
}.

(** [__init__] over a given vector store. *)
Definition init (vectorstore : list Document) : t :=
  {| memory_manager := vectorstore;
     conversation_memory := {| window_k := 10; chat_memory := [] |} |}.

(** [self.tutor_prompt.format(...)]. *)
Definition tutor_prompt (context user_level question history : string)
    : string :=
  "You are an expert C programming tutor. You're patient, encouraging, and adapt your teaching style to the student's level.

Student Level: " +:+ user_level +:+ "
Previous Context: " +:+ context +:+ "
Conversation History: " +:+ history +:+ "

Student Question: " +:+ question +:+ "

Guidelines:
- Provide clear, step-by-step explanations
- Use appropriate examples for the student's level
- Encourage questions and experimentation
- Point out common mistakes and how to avoid them
- If the student seems stuck, break down the problem into smaller parts

Response:".

(** The text stored for one exchange: [f"Q: {question}\nA: {response}"]. *)
Definition interaction_text (question response : string) : string :=
  "Q: " +:+ question +:+ "
A: " +:+ response.

Definition qa_metadata (user_level : Z) : metadata_t :=
  <[ "type" := VStr "qa" ]> {[ "level" := VInt user_level ]}.

(** The prompt that [generate_response] submits, given the retrieved
    context. *)
Definition formatted_prompt (self : t) (context : list string)
    (question : string) (user_level : Z) : string :=
  tutor_prompt (String.concat "
" context) (pretty user_level) question (buffer (conversation_memory self)).

Definition generate_response (env : Backend) (self : t)
    (user_id question : string) (user_level : Z) : result (string * t) :=
  let* context :=
    MemoryManager.get_user_context env (memory_manager self) user_id question 5 in
  let* response := llm env (formatted_prompt self context question user_level) in
  let* vectorstore :=
    MemoryManager.add_user_interaction env (memory_manager self) user_id
      (interaction_text question response) (qa_metadata user_level) in
  Ok (response,
      {| memory_manager := vectorstore;
         conversation_memory := conversation_memory self |}).

Definition quiz_prompt (topic : string) (difficulty num_questions : Z)
    : string :=
  "Generate " +:+ pretty num_questions +:+ " multiple choice questions about " +:+ topic +:+ " in C programming.
Difficulty level: " +:+ pretty difficulty +:+ "/10

Format each question as:
Q: [question]
A) [option 1]
B) [option 2] 
C) [option 3]
D) [option 4]
Correct: [A/B/C/D]
Explanation: [brief explanation]

---".

(** The structured form of one quiz question. *)
Record QuizQuestion : Type := {
  question : string;
  options : list string;
  correct_answer : Z;
  explanation : string
}.

(** The source builds an empty list and returns it; the parsing itself
    is left as a comment. *)
Definition _parse_quiz_response (response : string) : list QuizQuestion :=
  let questions := [] in
  questions.

(** The default of the [num_questions] parameter of [generate_quiz]. *)
Definition num_questions_default : Z := 5.

Definition generate_quiz (env : Backend) (topic : string)
    (difficulty num_questions : Z) : result (list QuizQuestion) :=
  let* response := llm env (quiz_prompt topic difficulty num_questions) in
  Ok (_parse_quiz_response response).

(** *** Sequences of calls on one agent

    The process holds one agent and serves every user's calls with it.
    A call names the user it is made for and comes with the behaviour of
    the external services at that time. *)
Record call : Type := {
  call_env : Backend;
  call_user : string;
  call_question : string;
  call_level : Z
}.

Definition respond (self : t) (c : call) : result (string * t) :=
  generate_response (call_env c) self
    (call_user c) (call_question c) (call_level c).

(** A call that raises leaves the agent as it was. *)
Definition serve (self : t) (c : call) : t :=
  match respond self c with
  | Ok (_, self') => self'
  | Raise _ => self
  end.

Definition run (self : t) (calls : list call) : t := foldl serve self calls.

(** The exchanges produced by the successful calls made for [user]. *)
Fixpoint exchanges_of (user : string) (self : t) (calls : list call)
    : list exchange :=
  match calls with
  | [] => []
  | c :: calls' =>
      match respond self c with
      | Ok (response, self') =>
          (if decide (call_user c = user)
           then [(call_question c, response)] else [])
          ++ exchanges_of user self' calls'
      | Raise _ => exchanges_of user self calls'
      end
  end.

(** The history portion of the prompt that the agent builds next. *)
Definition history (self : t) : string := buffer (conversation_memory self).

(** [occurs s h]: the text [s] occurs in [h]. *)
Definition occurs (s h : string) : Prop := ∃ pre post, h = pre +:+ s +:+ post.

(** *** Quiz text *)

(** The lines of a text, split at newlines. *)
Fixpoint lines_from (acc : string) (s : string) : list string :=
  match s with
  | EmptyString => [String.rev acc]
  | String c s' =>
      if Ascii.eqb c "010"%char
      then String.rev acc :: lines_from EmptyString s'
      else lines_from (String c acc) s'
  end.

Definition lines (s : string) : list string := lines_from EmptyString s.

Definition has_correct_line (block : string) : bool :=
  existsb (String.prefix "Correct:") (lines block).

End TutorAgent.

(** ** The API layer (backend/api/main.py) *)

Module Api.

(** One entry of [users_db]: the dict form of a [UserProfile]. *)
Record UserProfile : Type := {
  user_id : string;
  name : string;
  current_level : Z;
  completed_lessons : list string;
  quiz_scores : gmap string Q;
  learning_preferences : metadata_t;
  created_at : Z;
  last_active : Z
}.

Record ChatMessage : Type := {
  message : string;
  msg_user_id : string;
  context : option string
}.

(** What an endpoint answers: a 200 body, or an [HTTPException]. *)
Inductive response (A : Type) : Type :=
| Http200 (body : A)
| HTTPException (status_code : Z) (detail : string).
Arguments Http200 {A} body.
Arguments HTTPException {A} status_code detail.

(** The module-level objects: the single [tutor_agent] and [users_db]. *)
Record t : Type := {
  tutor_agent : TutorAgent.t;
  users_db : gmap string UserProfile
}.

(** [users_db.get(message.user_id, {}).get("current_level", 1)]. *)
Definition user_level_of (db : gmap string UserProfile) (uid : string) : Z :=
  match db !! uid with
  | Some user => current_level user
  | None => 1
  end.

(** [POST /api/chat]: the body is [{"response": response}]. *)
Definition chat (env : Backend) (app : t) (msg : ChatMessage)
    : response string * t :=
  let user_level := user_level_of (users_db app) (msg_user_id msg) in
  match TutorAgent.generate_response env (tutor_agent app)
          (msg_user_id msg) (message msg) user_level with
  | Ok (resp, agent) =>
      (Http200 resp, {| tutor_agent := agent; users_db := users_db app |})
  | Raise e => (HTTPException 500 e, app)
  end.

(** [GET /api/users/{user_id}]. *)
Definition get_user (app : t) (uid : string) : response UserProfile :=
  match users_db app !! uid with
  | Some user => Http200 user
  | None => HTTPException 404 "User not found"
  end.

(** [POST /api/quiz/{topic}].  The handler declares [topic] and
    [difficulty: int = 5]; [query] holds the integer query parameters of
    the request, and a parameter the handler does not declare is not
    read.  The call [tutor_agent.generate_quiz(topic, difficulty)] leaves
    [num_questions] to its default. *)
Definition generate_quiz (env : Backend) (topic : string)
    (query : gmap string Z) : response (list TutorAgent.QuizQuestion) :=
  let difficulty := default 5 (query !! "difficulty") in
  match TutorAgent.generate_quiz env topic difficulty
          TutorAgent.num_questions_default with
  | Ok quiz => Http200 quiz
  | Raise e => HTTPException 500 e
  end.

(** [UserProfile(user_id=..., name=..., created_at=..., last_active=...)]:
    the fields that [create_user] does not pass take the defaults that
    backend/models/schemas.py declares. *)
Definition new_profile (uid user_name : string) (created last : Z)
    : UserProfile :=
  {| user_id := uid;
     name := user_name;
     current_level := 1;
     completed_lessons := [];
     quiz_scores := ∅;
     learning_preferences := ∅;
     created_at := created;
     last_active := last |}.

(** [POST /api/users].  The identifier drawn by [uuid.uuid4()] and the two
    readings of [datetime.now()] come from outside; the body is
    [{"user_id": user_id}]. *)
Definition create_user (app : t) (uuid : string) (now1 now2 : Z)
    (user_name : string) : response string * t :=
  (Http200 uuid,
   {| tutor_agent := tutor_agent app;
      users_db := <[ uuid := new_profile uuid user_name now1 now2 ]>
                    (users_db app) |}).

(** The module-level objects when the process starts: an agent over the
    persisted vector store, and an empty [users_db]. *)
Definition startup (vectorstore : list Chroma.Document) : t :=
  {| tutor_agent := TutorAgent.init vectorstore; users_db := ∅ |}.

(** *** Sequences of requests

    A request comes with what the outside world contributes to it: the
    behaviour of the services for the endpoints that call them, the
    identifier and the clock readings for [create_user]. *)
Inductive request : Type :=
| PostChat (env : Backend) (msg : ChatMessage)
| PostUsers (uuid : string) (now1 now2 : Z) (user_name : string)
| GetUser (uid : string)
| PostQuiz (env : Backend) (topic : string) (query : gmap string Z).

Inductive reply : Type :=
| ChatReply (r : response string)
| UsersReply (r : response string)
| UserReply (r : response UserProfile)
| QuizReply (r : response (list TutorAgent.QuizQuestion)).

Definition handle (app : t) (req : request) : reply * t :=
  match req with
  | PostChat env msg =>
      let '(r, app') := chat env app msg in (ChatReply r, app')
  | PostUsers uuid now1 now2 user_name =>
      let '(r, app') := create_user app uuid now1 now2 user_name in
      (UsersReply r, app')
  | GetUser uid => (UserReply (get_user app uid), app)
  | PostQuiz env topic query =>
      (QuizReply (generate_quiz env topic query), app)
  end.

Fixpoint handle_all (app : t) (reqs : list request) : list reply * t :=
  match reqs with
  | [] => ([], app)
  | req :: reqs' =>
      let '(r, app') := handle app req in
      let '(rs, app'') := handle_all app' reqs' in
      (r :: rs, app'')
  end.

(** A chat request that was answered with status 200. *)
Definition chat_ok (r : reply) : bool :=
  match r with
  | ChatReply (Http200 _) => true
  | _ => false
  end.

(** Every profile is as [create_user] made it, under its own identifier. *)
Definition fresh_profiles (db : gmap string UserProfile) : Prop :=
  ∀ uid p, db !! uid = Some p →
    user_id p = uid ∧ current_level p = 1 ∧ completed_lessons p = [] ∧
    quiz_scores p = ∅ ∧ learning_preferences p = ∅.

End Api.

(** ** A concrete backend for examples

    Texts are embedded by their length, the metric is the squared
    difference, and the completion model answers every prompt with the same
    sentence. *)

Module Example.

Definition env : Backend := {|
  embed := λ s, Ok [inject_Z (Z.of_nat (String.length s))];
  distance := λ a b,
    match a, b with
    | [x], [y] => ((x - y) * (x - y))%Q
    | _, _ => 0%Q
    end;
  llm := λ _, Ok "A pointer stores an address."
|}.

(** A completion service that is down: it raises with the prompt it was
    sent as the error text. *)
Definition env_down : Backend := {|
  embed := embed env;
  distance := distance env;
  llm := λ prompt, Raise prompt
|}.

Definition call_alice : TutorAgent.call := {|
  TutorAgent.call_env := env;
  TutorAgent.call_user := "alice";
  TutorAgent.call_question := "What is a pointer?";
  TutorAgent.call_level := 1
|}.

Definition call_bob : TutorAgent.call := {|
  TutorAgent.call_env := env;
  TutorAgent.call_user := "bob";
  TutorAgent.call_question := "What is an array?";
  TutorAgent.call_level := 2
|}.

(** A store shared by two users and a lesson. *)
Definition vectorstore : list Chroma.Document :=
  [ {| Chroma.page_content := "lesson text"; Chroma.embedding := [3%Q];
       Chroma.metadata := MemoryManager.lesson_metadata "L1" |};
    {| Chroma.page_content := "far"; Chroma.embedding := [9%Q];
       Chroma.metadata := MemoryManager.user_metadata "alice" ∅ |};
    {| Chroma.page_content := "bob's"; Chroma.embedding := [3%Q];
       Chroma.metadata := MemoryManager.user_metadata "bob" ∅ |};
    {| Chroma.page_content := "near"; Chroma.embedding := [4%Q];
       Chroma.metadata := MemoryManager.user_metadata "alice" ∅ |} ].

(** The well-formed quiz block of the specification. *)
Definition quiz_block : string :=
  "Q: What is a pointer?
A) x
B) y
C) z
D) w
Correct: B
Explanation: ...
---".

(** The same block without its [Correct:] line. *)
Definition quiz_block_no_correct : string :=
  "Q: What is a pointer?
A) x
B) y
C) z
D) w
Explanation: ...
---".

(** An embedding service that fails on every text that starts with
    [Q: ], the form of a stored exchange, and answers as [env] does on
    every other text. *)
Definition env_no_record : Backend := {|
  embed := λ s,
    if String.prefix "Q: " s
    then Raise "embedding service unavailable"
    else embed env s;
  distance := distance env;
  llm := llm env
|}.

(** A history of three writes, and the store it leaves. *)
Definition history : list MemoryManager.record_op :=
  [ MemoryManager.UserInteraction "alice" "alice's note" ∅;
    MemoryManager.LessonContent "L1" "lesson text";
    MemoryManager.UserInteraction "bob" "bob's note" ∅ ].

Definition history_store : list Chroma.Document :=
  [ {| Chroma.page_content := "alice's note"; Chroma.embedding := [12%Q];
       Chroma.metadata := MemoryManager.user_metadata "alice" ∅ |};
    {| Chroma.page_content := "lesson text"; Chroma.embedding := [11%Q];
       Chroma.metadata := MemoryManager.lesson_metadata "L1" |};
    {| Chroma.page_content := "bob's note"; Chroma.embedding := [10%Q];
       Chroma.metadata := MemoryManager.user_metadata "bob" ∅ |} ].

End Example.

(** * Properties *)

Lemma bind_Ok {A B : Type} (r : result A) (f : A → result B) (b : B) :
  bind r f = Ok b ↔ ∃ a, r = Ok a ∧ f a = Ok b.
Proof.
  destruct r as [a|e]; simpl; split.
  - intros H. by exists a.
  - by intros (a' & [= ->] & H).
  - intros [=].
  - by intros (a' & [=] & _).
Qed.

(** ** The vector store *)

Section ChromaFacts.
Import Chroma.
Context (env : Backend).

Lemma matches_spec (flt : metadata_t) (d : Document) :
  matches flt d = true ↔
  ∀ key v, flt !! key = Some v → metadata d !! key = Some v.
Proof.
  unfold matches. rewrite forallb_forall. split.
  - intros H key v Hkv.
    apply elem_of_map_to_list, list_elem_of_In in Hkv.
    apply H in Hkv. by apply bool_decide_eq_true in Hkv.
  - intros H [key v] Hin. apply bool_decide_eq_true. simpl.
    apply H. by apply elem_of_map_to_list, list_elem_of_In.
Qed.

#[local] Instance closer_total q : Total (closer env q).
Proof.
  intros d1 d2. unfold closer.
  destruct (Qlt_le_dec (distance env q (embedding d2))
                       (distance env q (embedding d1))) as [Hlt|Hle].
  - right. by apply Qlt_le_weak.
  - by left.
Qed.

#[local] Instance closer_trans q : Transitive (closer env q).
Proof. intros d1 d2 d3. unfold closer. apply Qle_trans. Qed.

(** The search answers whenever the query can be embedded, and what it
    answers is the first [k] documents of a most-similar-first ordering of
    the documents that pass the filter. *)
Lemma similarity_search_spec collection query k flt q :
  embed env query = Ok q →
  ∃ docs rest,
    similarity_search env collection query k flt = Ok docs ∧
    docs ++ rest ≡ₚ List.filter (matches flt) collection ∧
    StronglySorted (closer env q) (docs ++ rest) ∧
    length docs = (k `min` length (List.filter (matches flt) collection))%nat.
Proof.
  intros Hq. unfold similarity_search. rewrite Hq. simpl.
  set (sorted := merge_sort (closer env q) (List.filter (matches flt) collection)).
  exists (take k sorted), (drop k sorted).
  rewrite take_drop. repeat split.
  - apply merge_sort_Permutation.
  - apply StronglySorted_merge_sort; apply _.
  - rewrite length_take. f_equal.
    apply Permutation_length, merge_sort_Permutation.
Qed.

Lemma similarity_search_elem collection query k flt docs d :
  similarity_search env collection query k flt = Ok docs →
  d ∈ docs → d ∈ collection ∧ matches flt d = true.
Proof.
  unfold similarity_search. intros Hs Hd.
  apply bind_Ok in Hs as (q & _ & [= <-]).
  apply (subseteq_take k) in Hd.
  rewrite merge_sort_Permutation in Hd.
  apply list_elem_of_In, filter_In in Hd as [Hin Hm].
  split; [by apply list_elem_of_In | done].
Qed.

Lemma add_texts_one collection text md store :
  add_texts env collection [text] [md] = Ok store ↔
  ∃ v, embed env text = Ok v ∧
       store = collection ++
         [{| page_content := text; metadata := md; embedding := v |}].
Proof.
  unfold add_texts. simpl. destruct (embed env text) as [v|e]; simpl.
  - split.
    + intros [= <-]. by exists v.
    + by intros (v' & [= <-] & ->).
  - split; [intros [=] | by intros (v' & [=] & _)].
Qed.

End ChromaFacts.

(** ** The memory manager *)

Section MemoryManagerFacts.
Import Chroma MemoryManager.
Context (env : Backend).

Lemma matches_user_filter user_id d :
  matches (user_filter user_id) d = true ↔
  metadata d !! "user_id" = Some (VStr user_id).
Proof.
  rewrite matches_spec. unfold user_filter. split.
  - intros H. apply H. by rewrite lookup_singleton_eq.
  - intros H key v Hkv. apply lookup_singleton_Some in Hkv as [<- <-]. done.
Qed.

Lemma user_metadata_fresh user_id (md : metadata_t) :
  md !! "user_id" = None →
  user_metadata user_id md !! "user_id" = Some (VStr user_id).
Proof.
  intros H. unfold user_metadata.
  rewrite lookup_union_r by done. by rewrite lookup_singleton_eq.
Qed.

Lemma user_metadata_clash user_id (md : metadata_t) v :
  md !! "user_id" = Some v →
  user_metadata user_id md !! "user_id" = Some v.
Proof. intros H. unfold user_metadata. by apply lookup_union_Some_l. Qed.

Lemma user_metadata_other user_id (md : metadata_t) key :
  key ≠ "user_id" → user_metadata user_id md !! key = md !! key.
Proof.
  intros H. unfold user_metadata. rewrite lookup_union.
  rewrite lookup_singleton_ne by done. by destruct (md !! key).
Qed.

Lemma lesson_metadata_no_user lesson_id :
  lesson_metadata lesson_id !! "user_id" = None.
Proof.
  unfold lesson_metadata.
  rewrite lookup_insert_ne by done. by rewrite lookup_singleton_ne.
Qed.

(** Every document among the results is a stored document that carries
    the [user_id] asked for. *)
Lemma get_user_results_scope vectorstore user_id query k docs d :
  get_user_results env vectorstore user_id query k = Ok docs →
  d ∈ docs →
  d ∈ vectorstore ∧ metadata d !! "user_id" = Some (VStr user_id).
Proof.
  unfold get_user_results. intros Hs Hd.
  destruct (similarity_search_elem env _ _ _ _ _ _ Hs Hd) as [Hin Hm].
  split; [done | by apply matches_user_filter].
Qed.

Lemma get_user_context_scope vectorstore user_id query k texts text :
  get_user_context env vectorstore user_id query k = Ok texts →
  text ∈ texts →
  ∃ d, d ∈ vectorstore ∧ page_content d = text ∧
       metadata d !! "user_id" = Some (VStr user_id).
Proof.
  unfold get_user_context. intros Hc Ht.
  apply bind_Ok in Hc as (docs & Hs & [= <-]).
  apply list_elem_of_fmap in Ht as (d & -> & Hd).
  exists d. destruct (get_user_results_scope _ _ _ _ _ _ Hs Hd). done.
Qed.

(** A document that does not carry the [user_id] asked for changes
    nothing in what is retrieved. *)
Lemma get_user_context_app_other vectorstore d user_id query k :
  metadata d !! "user_id" ≠ Some (VStr user_id) →
  get_user_context env (vectorstore ++ [d]) user_id query k =
  get_user_context env vectorstore user_id query k.
Proof.
  intros Hd. unfold get_user_context, get_user_results, similarity_search.
  rewrite List.filter_app. simpl.
  destruct (matches (user_filter user_id) d) eqn:Hm.
  - by apply matches_user_filter in Hm.
  - by rewrite app_nil_r.
Qed.

Lemma record_origin vectorstore op vectorstore' :
  record env vectorstore op = Ok vectorstore' →
  ∃ d, vectorstore' = vectorstore ++ [d] ∧ origin d op.
Proof.
  destruct op as [u t md | l c]; simpl;
    unfold add_user_interaction, add_lesson_content;
    intros (v & _ & ->)%add_texts_one; eexists; split; done.
Qed.

Lemma replay_origin ops : ∀ vectorstore vectorstore' d,
  replay env vectorstore ops = Ok vectorstore' →
  d ∈ vectorstore' →
  d ∈ vectorstore ∨ ∃ op, op ∈ ops ∧ origin d op.
Proof.
  induction ops as [|op ops IH]; simpl; intros vs vs' d Hr Hd.
  - left. by injection Hr as ->.
  - apply bind_Ok in Hr as (vs1 & Hop & Hr).
    destruct (record_origin _ _ _ Hop) as (d1 & -> & Ho).
    destruct (IH _ _ _ Hr Hd) as [Hin | (op' & Hin & Ho')].
    + apply elem_of_app in Hin as [Hin | ->%list_elem_of_singleton].
      * by left.
      * right. exists op. split; [left | done].
    + right. exists op'. split; [by right | done].
Qed.

(** Scope isolation over a history of writes, as long as no write passes
    a [user_id] key of its own in its metadata: a text retrieved for
    [user_id] was recorded by [add_user_interaction] for [user_id]. *)
Lemma replay_user_scope ops vectorstore user_id query k texts text :
  (∀ u t md, UserInteraction u t md ∈ ops → md !! "user_id" = None) →
  replay env [] ops = Ok vectorstore →
  get_user_context env vectorstore user_id query k = Ok texts →
  text ∈ texts →
  ∃ md, UserInteraction user_id text md ∈ ops.
Proof.
  intros Hfresh Hr Hc Ht.
  destruct (get_user_context_scope _ _ _ _ _ _ Hc Ht) as (d & Hd & <- & Hu).
  destruct (replay_origin _ _ _ _ Hr Hd) as [Hnil | (op & Hop & Ho)].
  - by apply not_elem_of_nil in Hnil.
  - destruct op as [u t md | l c]; simpl in Ho; destruct Ho as [<- Hmd].
    + rewrite Hmd, (user_metadata_fresh u md) in Hu by eauto.
      injection Hu as ->. by exists md.
    + by rewrite Hmd, lesson_metadata_no_user in Hu.
Qed.

End MemoryManagerFacts.

(** ** Claims about the memory store *)

Section MemoryClaims.
Import Chroma MemoryManager.

(** C1 (scope isolation), at a failing input.  One interaction is
    recorded for alice, with a metadata dict that has a [user_id] key of
    its own.  The store then holds nothing recorded for bob, yet
    retrieval for bob returns alice's text, and retrieval for alice
    returns nothing. *)
Theorem metadata_user_id_overrides_scope :
  ∃ d,
    replay Example.env []
      [UserInteraction "alice" "secret" {[ "user_id" := VStr "bob" ]}]
      = Ok [d] ∧
    page_content d = "secret" ∧
    metadata d !! "user_id" = Some (VStr "bob") ∧
    get_user_context Example.env [d] "bob" "secret" 5 = Ok ["secret"] ∧
    get_user_context Example.env [d] "alice" "secret" 5 = Ok [].
Proof.
  eexists. split; [reflexivity |].
  repeat split; vm_compute; reflexivity.
Qed.

(** C3 (top-k retrieval).  Whenever the query can be embedded,
    [get_user_context] returns the texts of a list [docs] that is the
    front of a most-similar-first ordering [docs ++ rest] of the stored
    documents of the scope; it has [min k n] elements where [n] documents
    are in scope, so at most [k], all [n] of them when [n ≤ k], and none
    (an empty list, not an error) when [n = 0]. *)
Theorem get_user_context_top_k env vectorstore user_id query k q :
  embed env query = Ok q →
  let in_scope := List.filter (matches (user_filter user_id)) vectorstore in
  ∃ docs rest,
    get_user_context env vectorstore user_id query k
      = Ok (page_content <$> docs) ∧
    docs ++ rest ≡ₚ in_scope ∧
    StronglySorted (closer env q) (docs ++ rest) ∧
    length (page_content <$> docs) = (k `min` length in_scope)%nat ∧
    (length (page_content <$> docs) ≤ k)%nat ∧
    ((length in_scope ≤ k)%nat → docs ≡ₚ in_scope) ∧
    (in_scope = [] → page_content <$> docs = []).
Proof.
  intros Hq in_scope.
  destruct (similarity_search_spec env vectorstore query k
              (user_filter user_id) q Hq)
    as (docs & rest & Hs & Hperm & Hsorted & Hlen).
  fold in_scope in Hperm, Hlen.
  exists docs, rest.
  unfold get_user_context, get_user_results. rewrite Hs. simpl.
  rewrite length_fmap.
  assert (Hall : (length in_scope ≤ k)%nat → rest = []).
  { intros Hk. apply Permutation_length in Hperm.
    rewrite length_app in Hperm. apply length_zero_iff_nil. lia. }
  repeat split; try done.
  - lia.
  - intros Hk. rewrite (Hall Hk), app_nil_r in Hperm. done.
  - intros Hnil. rewrite Hnil in Hlen. simpl in Hlen.
    replace (k `min` 0)%nat with 0%nat in Hlen by lia.
    apply length_zero_iff_nil in Hlen. by rewrite Hlen.
Qed.

(** The theorem at the example store, for alice and [k = 5]. *)
Lemma get_user_context_top_k_witness :
  ∃ docs rest,
    get_user_context Example.env Example.vectorstore "alice" "abc" 5
      = Ok (page_content <$> docs) ∧
    StronglySorted (closer Example.env [3%Q]) (docs ++ rest) ∧
    length (page_content <$> docs) = 2%nat.
Proof.
  destruct (get_user_context_top_k Example.env Example.vectorstore
              "alice" "abc" 5 [3%Q] eq_refl)
    as (docs & rest & Hc & _ & Hsorted & Hlen & _).
  exists docs, rest. repeat split; [exact Hc | exact Hsorted |].
  rewrite Hlen. vm_compute. reflexivity.
Defined.

Example get_user_context_alice :
  get_user_context Example.env Example.vectorstore "alice" "abc" 5
    = Ok ["near"; "far"].
Proof. vm_compute. reflexivity. Qed.

Example get_user_context_stranger :
  get_user_context Example.env Example.vectorstore "carol" "abc" 5 = Ok [].
Proof. vm_compute. reflexivity. Qed.

(** C10 (lesson content is outside every user scope).  The document that
    [add_lesson_content] stores carries [type = lesson] and [lesson_id]
    and no [user_id] key; whatever the store, the user, the query and
    [k], it is never among the results of [get_user_context], and storing
    it changes no user's retrieved texts. *)
Theorem lesson_content_never_in_user_context
    env vectorstore lesson_id content vectorstore' :
  add_lesson_content env vectorstore lesson_id content = Ok vectorstore' →
  ∃ d,
    vectorstore' = vectorstore ++ [d] ∧
    page_content d = content ∧
    metadata d !! "type" = Some (VStr "lesson") ∧
    metadata d !! "lesson_id" = Some (VStr lesson_id) ∧
    metadata d !! "user_id" = None ∧
    ∀ env' user_id query k,
      (∀ store docs,
         get_user_results env' store user_id query k = Ok docs → d ∉ docs) ∧
      get_user_context env' vectorstore' user_id query k
        = get_user_context env' vectorstore user_id query k.
Proof.
  unfold add_lesson_content. intros (v & _ & ->)%add_texts_one.
  eexists. split; [reflexivity |]. simpl.
  split; [done |].
  split; [by unfold lesson_metadata; rewrite lookup_insert_eq |].
  split.
  { unfold lesson_metadata. rewrite lookup_insert_ne by done.
    by rewrite lookup_singleton_eq. }
  split; [apply lesson_metadata_no_user |].
  intros env' user_id query k. split.
  - intros store docs Hs Hd.
    apply (get_user_results_scope _ _ _ _ _ _ _ Hs) in Hd as [_ Hu].
    simpl in Hu. by rewrite lesson_metadata_no_user in Hu.
  - apply get_user_context_app_other. simpl.
    by rewrite lesson_metadata_no_user.
Qed.

(** The theorem at the example store, after a lesson is added to it. *)
Lemma lesson_content_never_in_user_context_witness :
  ∃ d,
    page_content d = "Pointers hold addresses." ∧
    metadata d !! "user_id" = None ∧
    get_user_context Example.env (Example.vectorstore ++ [d]) "alice" "abc" 5
      = get_user_context Example.env Example.vectorstore "alice" "abc" 5.
Proof.
  destruct (lesson_content_never_in_user_context Example.env
              Example.vectorstore "L2" "Pointers hold addresses."
              (Example.vectorstore ++
                 [{| page_content := "Pointers hold addresses.";
                     metadata := lesson_metadata "L2";
                     embedding := [24%Q] |}])
              eq_refl)
    as (d & Heq & Hc & _ & _ & Hu & H).
  exists d. split; [done |]. split; [done |].
  destruct (H Example.env "alice" "abc" 5%nat) as [_ Hctx].
  rewrite <- Heq. exact Hctx.
Defined.

End MemoryClaims.

(** ** The tutor agent *)

Section TutorAgentFacts.
Import Chroma MemoryManager TutorAgent.

Lemma get_user_context_available env vectorstore user_id query k :
  available env → is_Ok (get_user_context env vectorstore user_id query k).
Proof.
  intros [Hembed _]. destruct (Hembed query) as [q Hq].
  unfold get_user_context, get_user_results, similarity_search.
  rewrite Hq. simpl. by eexists.
Qed.

(** What a successful call did, step by step. *)
Lemma generate_response_Ok env self user_id question user_level response self' :
  generate_response env self user_id question user_level
    = Ok (response, self') ↔
  ∃ context v,
    get_user_context env (memory_manager self) user_id question 5
      = Ok context ∧
    llm env (formatted_prompt self context question user_level)
      = Ok response ∧
    embed env (interaction_text question response) = Ok v ∧
    self' =
      {| memory_manager := memory_manager self ++
           [{| page_content := interaction_text question response;
               metadata := user_metadata user_id (qa_metadata user_level);
               embedding := v |}];
         conversation_memory := conversation_memory self |}.
Proof.
  unfold generate_response, add_user_interaction. split.
  - intros (context & Hc & H)%bind_Ok.
    apply bind_Ok in H as (response' & Hl & H).
    apply bind_Ok in H as (vs & Hadd & [= <- <-]).
    apply add_texts_one in Hadd as (v & Hv & ->).
    by exists context, v.
  - intros (context & v & -> & Hl & Hv & ->). simpl. rewrite Hl. simpl.
    unfold add_texts. simpl. rewrite Hv. simpl. done.
Qed.

(** With both services up, every call succeeds. *)
Lemma generate_response_available env self user_id question user_level :
  available env →
  ∃ response self',
    generate_response env self user_id question user_level
      = Ok (response, self').
Proof.
  intros Hav.
  destruct (get_user_context_available env (memory_manager self)
              user_id question 5 Hav) as [context Hc].
  destruct Hav as [Hembed Hllm].
  destruct (Hllm (formatted_prompt self context question user_level))
    as [response Hl].
  destruct (Hembed (interaction_text question response)) as [v Hv].
  eexists response, _. apply generate_response_Ok.
  by exists context, v.
Qed.

(** No call writes to the conversation window. *)
Lemma generate_response_window env self user_id question user_level response self' :
  generate_response env self user_id question user_level
    = Ok (response, self') →
  conversation_memory self' = conversation_memory self.
Proof. by intros (context & v & _ & _ & _ & ->)%generate_response_Ok. Qed.

Lemma serve_window self c :
  conversation_memory (serve self c) = conversation_memory self.
Proof.
  unfold serve, respond.
  destruct (generate_response _ _ _ _ _) as [[response self']|e] eqn:H;
    [by apply generate_response_window in H | done].
Qed.

Lemma run_window calls : ∀ self,
  conversation_memory (run self calls) = conversation_memory self.
Proof.
  induction calls as [|c calls IH]; intros self; simpl; [done |].
  unfold run in IH. by rewrite IH, serve_window.
Qed.

Lemma occurs_empty e : ¬ occurs (render_exchange e) "".
Proof.
  intros (pre & post & H). destruct pre; simpl in H; discriminate.
Qed.

(** The window of the specification is a bounded queue. *)
Lemma save_context_length w e :
  (length (chat_memory w) ≤ window_k w)%nat →
  length (chat_memory (save_context w e))
    = (S (length (chat_memory w)) `min` window_k w)%nat.
Proof.
  intros H. unfold save_context. simpl.
  rewrite length_drop, !length_app. simpl length. destruct (window_k w); lia.
Qed.

Lemma save_context_last w e :
  (0 < window_k w)%nat → last (chat_memory (save_context w e)) = Some e.
Proof.
  intros H. unfold save_context. simpl.
  rewrite length_app. simpl length.
  rewrite drop_app_le by lia. apply last_snoc.
Qed.

End TutorAgentFacts.

(** ** Claims about the tutor agent *)

Section TutorAgentClaims.
Import Chroma MemoryManager TutorAgent.

(** C7 (the exchange is recorded).  A successful call of
    [generate_response] leaves the store with exactly one more document:
    its text is [Q: question], a newline, [A: response]; its metadata has
    [type = qa], the level of the user and the [user_id] of the call, so
    it is in that user's scope. *)
Theorem generate_response_records_interaction
    env self user_id question user_level response self' :
  generate_response env self user_id question user_level
    = Ok (response, self') →
  ∃ d,
    memory_manager self' = memory_manager self ++ [d] ∧
    page_content d = "Q: " +:+ question +:+ "
A: " +:+ response ∧
    metadata d !! "type" = Some (VStr "qa") ∧
    metadata d !! "level" = Some (VInt user_level) ∧
    metadata d !! "user_id" = Some (VStr user_id) ∧
    matches (user_filter user_id) d = true.
Proof.
  intros (context & v & _ & _ & _ & ->)%generate_response_Ok.
  eexists. split; [reflexivity |]. simpl.
  assert (Hu : user_metadata user_id (qa_metadata user_level) !! "user_id"
               = Some (VStr user_id)).
  { apply user_metadata_fresh. unfold qa_metadata.
    rewrite lookup_insert_ne by done. by rewrite lookup_singleton_ne. }
  split; [done |].
  split.
  { rewrite user_metadata_other by done.
    unfold qa_metadata. by rewrite lookup_insert_eq. }
  split.
  { rewrite user_metadata_other by done.
    unfold qa_metadata. rewrite lookup_insert_ne by done.
    by rewrite lookup_singleton_eq. }
  split; [done |].
  by apply matches_user_filter.
Qed.

(** The theorem at the first call on a fresh agent. *)
Lemma generate_response_records_interaction_witness :
  ∃ d,
    [d] = [] ++ [d] ∧
    page_content d = "Q: What is a pointer?
A: A pointer stores an address." ∧
    metadata d !! "level" = Some (VInt 1) ∧
    metadata d !! "user_id" = Some (VStr "u1").
Proof.
  destruct (generate_response_records_interaction Example.env (init [])
              "u1" "What is a pointer?" 1 "A pointer stores an address."
              {| memory_manager :=
                   [{| page_content := interaction_text "What is a pointer?"
                                         "A pointer stores an address.";
                       metadata := user_metadata "u1" (qa_metadata 1);
                       embedding := [53%Q] |}];
                 conversation_memory := conversation_memory (init []) |}
              eq_refl)
    as (d & Hstore & Htext & _ & Hlevel & Huser & _).
  exists d. done.
Defined.

(** C4 (the exchange is appended to the window), at a failing input.
    The first call on a fresh agent succeeds, and the window is as empty
    after it as before: the history of the next prompt is the empty
    text, where appending to the window would have left the exchange
    in it. *)
Theorem generate_response_leaves_window_empty :
  ∃ self',
    generate_response Example.env (init []) "u1" "What is a pointer?" 1
      = Ok ("A pointer stores an address.", self') ∧
    chat_memory (conversation_memory self') = [] ∧
    history self' = "" ∧
    chat_memory (save_context (conversation_memory (init []))
                   ("What is a pointer?", "A pointer stores an address."))
      = [("What is a pointer?", "A pointer stores an address.")].
Proof. eexists. split; [reflexivity |]. done. Qed.

(** C2 (no user sees another user's exchanges in the history).  Take two
    runs of the agent over any two sequences of calls that agree on the
    calls made for [u1].  The history that the agent puts into the next
    prompt is the same after both runs, and no exchange produced by a
    call made for another user [u2] occurs in it. *)
Theorem conversation_history_noninterference
    vectorstore (u1 u2 : string) (calls1 calls2 : list call) :
  u1 ≠ u2 →
  List.filter (λ c, bool_decide (call_user c = u1)) calls1
    = List.filter (λ c, bool_decide (call_user c = u1)) calls2 →
  history (run (init vectorstore) calls1)
    = history (run (init vectorstore) calls2) ∧
  (∀ context question level,
     formatted_prompt (run (init vectorstore) calls1) context question level
     = tutor_prompt (String.concat "
" context) (pretty level) question
         (history (run (init vectorstore) calls1))) ∧
  (∀ e, e ∈ exchanges_of u2 (init vectorstore) calls1 →
        (e ∉ chat_memory
               (conversation_memory (run (init vectorstore) calls1))) ∧
        (¬ occurs (render_exchange e)
             (history (run (init vectorstore) calls1)))).
Proof.
  intros _ _. split; [| split].
  - unfold history. by rewrite !run_window.
  - reflexivity.
  - intros e _. unfold history. rewrite run_window. simpl. split.
    + apply not_elem_of_nil.
    + apply occurs_empty.
Qed.

(** The theorem at two runs: bob then alice, and alice alone. *)
Lemma conversation_history_noninterference_witness :
  history (run (init []) [Example.call_bob; Example.call_alice])
    = history (run (init []) [Example.call_alice]) ∧
  ¬ occurs (render_exchange ("What is an array?", "A pointer stores an address."))
      (history (run (init []) [Example.call_bob; Example.call_alice])).
Proof.
  destruct (conversation_history_noninterference [] "alice" "bob"
              [Example.call_bob; Example.call_alice] [Example.call_alice])
    as (Hsame & _ & Hout).
  - discriminate.
  - reflexivity.
  - split; [exact Hsame |].
    apply (Hout ("What is an array?", "A pointer stores an address.")).
    vm_compute. left.
Defined.


(** C5 (parsing a well-formed quiz block), at the failing input.  For
    the block of the specification the parser returns no record at all:
    not one record with four options. *)
Theorem parse_quiz_response_well_formed_block :
  _parse_quiz_response Example.quiz_block = [] ∧
  length (_parse_quiz_response Example.quiz_block) ≠ 1%nat.
Proof. split; [reflexivity | discriminate]. Qed.

(** C6 (a block without a [Correct:] line).  For every text that has no
    line starting with [Correct:], the parser returns no record; it is a
    total function and has no failure to propagate, so a quiz request
    whose completion is such a text is answered with an empty quiz, not
    with an error. *)
Theorem parse_quiz_response_missing_correct response :
  has_correct_line response = false →
  _parse_quiz_response response = [] ∧
  ∀ env topic query,
    llm env (quiz_prompt topic (default 5 (query !! "difficulty"))
               num_questions_default) = Ok response →
    Api.generate_quiz env topic query = Api.Http200 [].
Proof.
  intros _. split; [reflexivity |].
  intros env topic query Hl.
  unfold Api.generate_quiz, generate_quiz. by rewrite Hl.
Qed.

(** The theorem at the block of the specification without its
    [Correct:] line. *)
Lemma parse_quiz_response_missing_correct_witness :
  _parse_quiz_response Example.quiz_block_no_correct = [].
Proof.
  apply (parse_quiz_response_missing_correct Example.quiz_block_no_correct).
  vm_compute. reflexivity.
Defined.

End TutorAgentClaims.

(** ** Claims about the API layer *)

Section ApiClaims.
Import TutorAgent Api.

(** C8 (the quiz endpoint honours [num_questions]), at a failing input.
    A request for 3 questions at difficulty 7 makes the agent ask the
    completion service for 5 questions; in general the endpoint answers
    as if the [num_questions] parameter were not there. *)
Theorem quiz_endpoint_ignores_num_questions :
  Api.generate_quiz Example.env_down "pointers"
    (<[ "num_questions" := 3 ]> {[ "difficulty" := 7 ]})
    = HTTPException 500 (quiz_prompt "pointers" 7 5) ∧
  quiz_prompt "pointers" 7 5 ≠ quiz_prompt "pointers" 7 3 ∧
  ∀ env topic (query : gmap string Z),
    Api.generate_quiz env topic query
    = Api.generate_quiz env topic (delete "num_questions" query).
Proof.
  split; [vm_compute; reflexivity |].
  split; [vm_compute; discriminate |].
  intros env topic query. unfold Api.generate_quiz.
  by rewrite lookup_delete_ne.
Qed.

(** C9 (chat for an unknown user).  When [user_id] is not in [users_db],
    [POST /api/chat] answers what [generate_response] gives at level 1:
    a 200 body holding the response, or a 500 when a service raises.  It
    never answers 404, and with both services up it answers 200. *)
Theorem chat_unknown_user env app msg :
  users_db app !! msg_user_id msg = None →
  (chat env app msg).1 =
    match generate_response env (tutor_agent app)
            (msg_user_id msg) (message msg) 1 with
    | Ok (resp, _) => Http200 resp
    | Raise e => HTTPException 500 e
    end ∧
  (∀ detail, (chat env app msg).1 ≠ HTTPException 404 detail) ∧
  (available env → ∃ resp, (chat env app msg).1 = Http200 resp).
Proof.
  intros Hnone. unfold chat, user_level_of. rewrite Hnone.
  split; [| split].
  - by destruct (generate_response _ _ _ _ _) as [[resp agent]|e].
  - intros detail.
    by destruct (generate_response _ _ _ _ _) as [[resp agent]|e].
  - intros Hav.
    destruct (generate_response_available env (tutor_agent app)
                (msg_user_id msg) (message msg) 1 Hav)
      as (resp & agent & ->).
    by exists resp.
Qed.

(** The theorem at an empty [users_db]. *)
Lemma chat_unknown_user_witness :
  (chat Example.env {| tutor_agent := init []; users_db := ∅ |}
     {| message := "Explain pointers"; msg_user_id := "nobody";
        context := None |}).1
  = Http200 "A pointer stores an address.".
Proof.
  destruct (chat_unknown_user Example.env
              {| tutor_agent := init []; users_db := ∅ |}
              {| message := "Explain pointers"; msg_user_id := "nobody";
                 context := None |}) as (Heq & _ & _).
  - vm_compute. reflexivity.
  - rewrite Heq. reflexivity.
Defined.

End ApiClaims.

(** * Further properties *)

(** ** Writing to and reading from the memory store *)

Section MemoryManagerMore.
Import Chroma MemoryManager.

(** What a successful write did. *)
Lemma add_user_interaction_Ok env vectorstore user_id interaction md vectorstore' :
  add_user_interaction env vectorstore user_id interaction md
    = Ok vectorstore' ↔
  ∃ v, embed env interaction = Ok v ∧
       vectorstore' = vectorstore ++
         [{| page_content := interaction;
             metadata := user_metadata user_id md;
             embedding := v |}].
Proof. unfold add_user_interaction. apply add_texts_one. Qed.

(** X4.  A successful [add_user_interaction] appends exactly one document.
    Its text is the interaction, verbatim; every key of the caller's
    metadata is stored with the caller's value; the [user_id] of the call
    is stored when the metadata has no [user_id] key; no other key is
    stored. *)
Theorem add_user_interaction_stores
    env vectorstore user_id interaction (md : metadata_t) vectorstore' :
  add_user_interaction env vectorstore user_id interaction md
    = Ok vectorstore' →
  ∃ d,
    vectorstore' = vectorstore ++ [d] ∧
    page_content d = interaction ∧
    embed env interaction = Ok (embedding d) ∧
    (∀ key v, md !! key = Some v → metadata d !! key = Some v) ∧
    (md !! "user_id" = None → metadata d !! "user_id" = Some (VStr user_id)) ∧
    dom (metadata d) = dom md ∪ {[ "user_id" ]}.
Proof.
  intros (v & Hv & ->)%add_user_interaction_Ok.
  eexists. split; [reflexivity |]. simpl.
  split; [done |]. split; [done |]. split; [| split].
  - intros key w Hkey. unfold user_metadata. by apply lookup_union_Some_l.
  - apply user_metadata_fresh.
  - unfold user_metadata. by rewrite dom_union_L, dom_singleton_L.
Qed.

(** The theorem at a write with a [topic] key, on the example store. *)
Lemma add_user_interaction_stores_witness :
  ∃ d,
    page_content d = "loops" ∧
    metadata d !! "topic" = Some (VStr "for") ∧
    metadata d !! "user_id" = Some (VStr "carol").
Proof.
  destruct (add_user_interaction_stores Example.env Example.vectorstore
              "carol" "loops" {[ "topic" := VStr "for" ]}
              (Example.vectorstore ++
                 [{| page_content := "loops";
                     metadata := user_metadata "carol" {[ "topic" := VStr "for" ]};
                     embedding := [5%Q] |}])
              eq_refl)
    as (d & _ & Htext & _ & Hkeys & Huser & _).
  exists d. split; [done |]. split.
  - apply Hkeys. vm_compute. reflexivity.
  - apply Huser. vm_compute. reflexivity.
Defined.

(** A write fails exactly when its text cannot be embedded, with the
    error of the embedding service. *)
Lemma add_user_interaction_Raise env vectorstore user_id interaction md e :
  add_user_interaction env vectorstore user_id interaction md = Raise e ↔
  embed env interaction = Raise e.
Proof.
  unfold add_user_interaction, add_texts. simpl.
  destruct (embed env interaction) as [v|e']; simpl; split; congruence.
Qed.

Lemma in_scope_app user_id (vectorstore : list Document) d :
  List.filter (matches (user_filter user_id)) (vectorstore ++ [d]) =
  List.filter (matches (user_filter user_id)) vectorstore ++
  (if matches (user_filter user_id) d then [d] else []).
Proof. rewrite List.filter_app. simpl. by destruct (matches _ d). Qed.

(** Every stored document of the scope is retrieved when [k] is at least
    the size of the scope. *)
Lemma get_user_context_all env vectorstore user_id query k q d :
  embed env query = Ok q →
  (length (List.filter (matches (user_filter user_id)) vectorstore) ≤ k)%nat →
  d ∈ vectorstore →
  metadata d !! "user_id" = Some (VStr user_id) →
  ∃ texts,
    get_user_context env vectorstore user_id query k = Ok texts ∧
    page_content d ∈ texts.
Proof.
  intros Hq Hk Hd Hu.
  destruct (similarity_search_spec env vectorstore query k
              (user_filter user_id) q Hq)
    as (docs & rest & Hs & Hperm & _ & Hlen).
  exists (page_content <$> docs).
  unfold get_user_context, get_user_results. rewrite Hs. simpl.
  split; [done |].
  assert (Hrest : rest = []).
  { apply Permutation_length in Hperm. rewrite length_app in Hperm.
    apply length_zero_iff_nil. lia. }
  rewrite Hrest, app_nil_r in Hperm.
  apply list_elem_of_fmap. exists d. split; [done |].
  rewrite Hperm. apply list_elem_of_In, filter_In.
  split; [by apply list_elem_of_In | by apply matches_user_filter].
Qed.

(** X5.  Record, then retrieve.  After [add_user_interaction] has stored
    a text for a user, with metadata that has no [user_id] key,
    [get_user_context] for that user returns the text, for every query
    that can be embedded and every [k] that is at least the number of
    documents the user then has. *)
Theorem record_then_retrieve
    env vectorstore user_id interaction (md : metadata_t) vectorstore'
    env' query k :
  add_user_interaction env vectorstore user_id interaction md
    = Ok vectorstore' →
  md !! "user_id" = None →
  is_Ok (embed env' query) →
  (length (List.filter (matches (user_filter user_id)) vectorstore') ≤ k)%nat →
  ∃ texts,
    get_user_context env' vectorstore' user_id query k = Ok texts ∧
    interaction ∈ texts.
Proof.
  intros (v & _ & ->)%add_user_interaction_Ok Hmd [q Hq] Hk.
  set (d := {| page_content := interaction;
               metadata := user_metadata user_id md; embedding := v |}).
  apply (get_user_context_all env' _ user_id query k q d); try done.
  - apply elem_of_app. right. by apply list_elem_of_singleton.
  - by apply user_metadata_fresh.
Qed.

(** The theorem at a third write for alice on the example store. *)
Lemma record_then_retrieve_witness :
  ∃ texts,
    get_user_context Example.env
      (Example.vectorstore ++
         [{| page_content := "third";
             metadata := user_metadata "alice" ∅;
             embedding := [5%Q] |}]) "alice" "abc" 5 = Ok texts ∧
    "third" ∈ texts.
Proof.
  apply (record_then_retrieve Example.env Example.vectorstore
           "alice" "third" ∅ _ Example.env "abc" 5%nat).
  - reflexivity.
  - vm_compute. reflexivity.
  - eexists. reflexivity.
  - vm_compute. lia.
Defined.

(** X6.  A write for one user changes no other user's retrieval: after
    [add_user_interaction] for [writer], with metadata that has no
    [user_id] key, [get_user_context] for any other user returns what it
    returned before, for every query and [k]. *)
Theorem add_user_interaction_other_scope
    env vectorstore writer interaction (md : metadata_t) vectorstore'
    reader env' query k :
  add_user_interaction env vectorstore writer interaction md
    = Ok vectorstore' →
  md !! "user_id" = None →
  reader ≠ writer →
  get_user_context env' vectorstore' reader query k
    = get_user_context env' vectorstore reader query k.
Proof.
  intros (v & _ & ->)%add_user_interaction_Ok Hmd Hne.
  apply get_user_context_app_other. simpl.
  rewrite user_metadata_fresh by done. congruence.
Qed.

(** The theorem at a write for carol, read by alice. *)
Lemma add_user_interaction_other_scope_witness :
  get_user_context Example.env
    (Example.vectorstore ++
       [{| page_content := "loops";
           metadata := user_metadata "carol" ∅;
           embedding := [5%Q] |}]) "alice" "abc" 5
  = get_user_context Example.env Example.vectorstore "alice" "abc" 5.
Proof.
  apply (add_user_interaction_other_scope Example.env Example.vectorstore
           "carol" "loops" ∅ _ "alice" Example.env "abc" 5%nat).
  - reflexivity.
  - vm_compute. reflexivity.
  - discriminate.
Defined.

End MemoryManagerMore.

(** ** Calls on the agent and the store they leave *)

Section TutorAgentMore.
Import Chroma MemoryManager TutorAgent.

Lemma qa_metadata_no_user user_level : qa_metadata user_level !! "user_id" = None.
Proof.
  unfold qa_metadata. rewrite lookup_insert_ne by done.
  by rewrite lookup_singleton_ne.
Qed.

(** The document of an exchange is in the scope of the user of the call,
    and in no other. *)
Lemma qa_document_scope reader writer text user_level v :
  matches (user_filter reader)
    {| page_content := text;
       metadata := user_metadata writer (qa_metadata user_level);
       embedding := v |}
  = bool_decide (writer = reader).
Proof.
  destruct (matches _ _) eqn:Hm.
  - apply matches_user_filter in Hm. simpl in Hm.
    rewrite user_metadata_fresh in Hm by apply qa_metadata_no_user.
    injection Hm as ->. symmetry. by apply bool_decide_eq_true.
  - symmetry. apply bool_decide_eq_false. intros ->.
    assert (Ht : matches (user_filter reader)
                   {| page_content := text;
                      metadata := user_metadata reader (qa_metadata user_level);
                      embedding := v |} = true).
    { apply matches_user_filter. simpl.
      apply user_metadata_fresh, qa_metadata_no_user. }
    congruence.
Qed.

Lemma get_user_context_Raise env vectorstore user_id query k e :
  get_user_context env vectorstore user_id query k = Raise e ↔
  embed env query = Raise e.
Proof.
  unfold get_user_context, get_user_results, similarity_search.
  destruct (embed env query) as [q|e']; simpl; split; congruence.
Qed.

(** What one call of a sequence does to the agent. *)
Lemma serve_cases self c :
  (∃ e, respond self c = Raise e ∧ serve self c = self) ∨
  (∃ response v,
     respond self c = Ok (response, serve self c) ∧
     memory_manager (serve self c) = memory_manager self ++
       [{| page_content := interaction_text (call_question c) response;
           metadata := user_metadata (call_user c) (qa_metadata (call_level c));
           embedding := v |}]).
Proof.
  unfold serve. destruct (respond self c) as [[response self']|e] eqn:Hr.
  - right. unfold respond in Hr.
    apply generate_response_Ok in Hr as (context & v & _ & _ & _ & ->).
    by exists response, v.
  - left. by exists e.
Qed.

(** X10.  When [generate_response] raises, and with what.  It raises [e]
    exactly when the question cannot be embedded for the retrieval, or
    the completion service raises on the prompt, or the completion
    succeeds and the exchange cannot be embedded for the store; [e] is the
    error of the service that failed. *)
Theorem generate_response_Raise env self user_id question user_level e :
  generate_response env self user_id question user_level = Raise e ↔
  embed env question = Raise e ∨
  (∃ context,
     get_user_context env (memory_manager self) user_id question 5
       = Ok context ∧
     llm env (formatted_prompt self context question user_level) = Raise e) ∨
  (∃ context response,
     get_user_context env (memory_manager self) user_id question 5
       = Ok context ∧
     llm env (formatted_prompt self context question user_level)
       = Ok response ∧
     embed env (interaction_text question response) = Raise e).
Proof.
  unfold generate_response.
  destruct (get_user_context env (memory_manager self) user_id question 5)
    as [context|e1] eqn:Hc; simpl.
  - assert (Hq : ∀ e', embed env question ≠ Raise e').
    { intros e' He'. apply get_user_context_Raise with
        (vectorstore := memory_manager self) (user_id := user_id) (k := 5%nat)
        in He'. congruence. }
    destruct (llm env (formatted_prompt self context question user_level))
      as [response|e2] eqn:Hl; simpl.
    + destruct (add_user_interaction env (memory_manager self) user_id
                  (interaction_text question response)
                  (qa_metadata user_level)) as [vs|e3] eqn:Ha; simpl.
      * split; [done |].
        apply add_user_interaction_Ok in Ha as (v & Hv & _).
        intros [He | [(c & [= <-] & He) | (c & r & [= <-] & Hr & He)]].
        -- by apply Hq in He.
        -- congruence.
        -- congruence.
      * apply add_user_interaction_Raise in Ha. split.
        -- intros [= <-]. right. right. by exists context, response.
        -- intros [He | [(c & [= <-] & He) | (c & r & [= <-] & Hr & He)]].
           ++ by apply Hq in He.
           ++ congruence.
           ++ congruence.
    + split.
      * intros [= <-]. right. left. by exists context.
      * intros [He | [(c & [= <-] & He) | (c & r & [= <-] & Hr & He)]].
        -- by apply Hq in He.
        -- congruence.
        -- congruence.
  - apply get_user_context_Raise in Hc. split.
    + intros [= <-]. by left.
    + intros [He | [(c & Hc' & _) | (c & r & Hc' & _)]];
        [congruence | discriminate | discriminate].
Qed.

(** X7.  The next call sees the exchange.  After a successful call for a
    user who had fewer than five documents in the store, the context
    retrieved for that user (for every question that can be embedded)
    contains the text of the exchange, and it is the context of the prompt
    that a next successful call for that user submits. *)
Theorem next_call_sees_previous_exchange
    env self user_id question user_level response self' env' question' :
  generate_response env self user_id question user_level
    = Ok (response, self') →
  (length (List.filter (matches (user_filter user_id)) (memory_manager self))
     < 5)%nat →
  is_Ok (embed env' question') →
  ∃ context,
    get_user_context env' (memory_manager self') user_id question' 5
      = Ok context ∧
    interaction_text question response ∈ context ∧
    ∀ user_level' response' self'',
      generate_response env' self' user_id question' user_level'
        = Ok (response', self'') →
      llm env' (formatted_prompt self' context question' user_level')
        = Ok response'.
Proof.
  intros (context0 & v & _ & _ & _ & ->)%generate_response_Ok Hlen [q Hq].
  simpl.
  set (d := {| page_content := interaction_text question response;
               metadata := user_metadata user_id (qa_metadata user_level);
               embedding := v |}).
  destruct (get_user_context_all env' (memory_manager self ++ [d])
              user_id question' 5 q d Hq) as (context & Hc & Hin).
  - rewrite in_scope_app, length_app. unfold d.
    rewrite qa_document_scope, bool_decide_eq_true_2 by done. simpl. lia.
  - apply elem_of_app. right. by apply list_elem_of_singleton.
  - simpl. apply user_metadata_fresh, qa_metadata_no_user.
  - exists context. split; [done |]. split; [done |].
    intros user_level' response' self''
      (context' & v' & Hc' & Hl & _ & _)%generate_response_Ok.
    simpl in Hc'. rewrite Hc in Hc'. by injection Hc' as <-.
Qed.

(** The theorem at the first two calls for alice on a fresh agent. *)
Lemma next_call_sees_previous_exchange_witness :
  ∃ context,
    get_user_context Example.env
      (memory_manager (serve (init []) Example.call_alice))
      "alice" "And a pointer to a pointer?" 5 = Ok context ∧
    "Q: What is a pointer?
A: A pointer stores an address." ∈ context.
Proof.
  destruct (next_call_sees_previous_exchange Example.env (init [])
              "alice" "What is a pointer?" 1 "A pointer stores an address."
              (serve (init []) Example.call_alice)
              Example.env "And a pointer to a pointer?")
    as (context & Hc & Hin & _).
  - reflexivity.
  - vm_compute. lia.
  - eexists. reflexivity.
  - exists context. split; [exact Hc | exact Hin].
Defined.

(** X8.  Calls made for other users change nothing in what a user
    retrieves: after any sequence of calls none of which is made for
    [user_id], [get_user_context] for [user_id] returns what it returned
    before, for every query and [k]. *)
Theorem other_users_calls_keep_context
    (calls : list call) self user_id env query k :
  (∀ c, c ∈ calls → call_user c ≠ user_id) →
  get_user_context env (memory_manager (run self calls)) user_id query k
    = get_user_context env (memory_manager self) user_id query k.
Proof.
  revert self. induction calls as [|c calls IH]; intros self Hother; [done |].
  change (run self (c :: calls)) with (run (serve self c) calls).
  rewrite IH by (intros c' Hc'; apply Hother; by right).
  destruct (serve_cases self c) as [(e & _ & ->) | (r & v & _ & ->)]; [done |].
  apply get_user_context_app_other. simpl.
  rewrite user_metadata_fresh by apply qa_metadata_no_user.
  intros [= Heq]. apply (Hother c); [by left | done].
Qed.

(** The theorem at a call for bob, read by alice, on the example store. *)
Lemma other_users_calls_keep_context_witness :
  get_user_context Example.env
    (memory_manager (run (init Example.vectorstore) [Example.call_bob]))
    "alice" "abc" 5
  = get_user_context Example.env
      (memory_manager (init Example.vectorstore)) "alice" "abc" 5.
Proof.
  apply (other_users_calls_keep_context [Example.call_bob]).
  intros c ->%list_elem_of_singleton. discriminate.
Defined.

(** X9.  The store is a log of the exchanges.  After any sequence of
    calls the store is the store before with documents appended to it,
    and for every user the texts of the appended documents in that user's
    scope are exactly the exchanges of the user's successful calls, in the
    order of the calls, each as [Q: question], newline, [A: response]. *)
Theorem store_logs_exchanges (calls : list call) self :
  ∃ new,
    memory_manager (run self calls) = memory_manager self ++ new ∧
    ∀ user_id,
      page_content <$> List.filter (matches (user_filter user_id)) new
      = (λ e : exchange, interaction_text e.1 e.2)
          <$> exchanges_of user_id self calls.
Proof.
  revert self. induction calls as [|c calls IH]; intros self.
  - exists []. split; [by rewrite app_nil_r | done].
  - change (run self (c :: calls)) with (run (serve self c) calls).
    destruct (IH (serve self c)) as (new & Hstore & Htexts).
    destruct (serve_cases self c)
      as [(e & Hr & Hs) | (r & v & Hr & Hs)].
    + exists new. rewrite Hs in Hstore, Htexts |- *. split; [done |].
      intros user_id. simpl. rewrite Hr. apply Htexts.
    + eexists (_ :: new). split.
      * rewrite Hstore, Hs, <- app_assoc. reflexivity.
      * intros user_id. simpl. rewrite Hr, qa_document_scope.
        unfold bool_decide.
        destruct (decide_rel eq (call_user c) user_id) as [Heq|Hne];
          destruct (decide (call_user c = user_id)); try done;
          simpl; by rewrite Htexts.
Qed.

End TutorAgentMore.

(** ** Requests to the API *)

Section ApiMore.
Import Chroma MemoryManager TutorAgent Api.

(** X1.  Create, then get.  [create_user] answers the identifier it was
    given; [get_user] on that identifier then answers the new profile:
    the name of the request, level 1, no completed lesson, no quiz score,
    the two clock readings, whether or not the identifier was in
    [users_db] before.  No other identifier's answer changes, and the
    agent is untouched. *)
Theorem create_user_then_get_user app uuid now1 now2 user_name :
  let app' := (create_user app uuid now1 now2 user_name).2 in
  (create_user app uuid now1 now2 user_name).1 = Http200 uuid ∧
  (∃ p, get_user app' uuid = Http200 p ∧
        user_id p = uuid ∧ name p = user_name ∧ current_level p = 1 ∧
        completed_lessons p = [] ∧ quiz_scores p = ∅ ∧
        created_at p = now1 ∧ last_active p = now2) ∧
  (∀ uid, uid ≠ uuid → get_user app' uid = get_user app uid) ∧
  tutor_agent app' = tutor_agent app.
Proof.
  simpl. split; [done |]. split; [| split; [| done]].
  - eexists. unfold get_user. simpl. rewrite lookup_insert_eq.
    split; [reflexivity | done].
  - intros uid Hne. unfold get_user. simpl.
    by rewrite lookup_insert_ne.
Qed.

Lemma user_level_of_fresh db uid : fresh_profiles db → user_level_of db uid = 1.
Proof.
  intros Hfresh. unfold user_level_of.
  destruct (db !! uid) as [p|] eqn:Hp; [| done].
  by destruct (Hfresh uid p Hp) as (_ & -> & _).
Qed.

Lemma fresh_profiles_insert db uuid user_name now1 now2 :
  fresh_profiles db →
  fresh_profiles (<[ uuid := new_profile uuid user_name now1 now2 ]> db).
Proof.
  intros Hfresh uid p Hp.
  destruct (decide (uuid = uid)) as [->|Hne].
  - rewrite lookup_insert_eq in Hp. by injection Hp as <-.
  - rewrite lookup_insert_ne in Hp by done. by apply Hfresh.
Qed.

(** What one request does to the module-level objects. *)
Lemma handle_step app req r app' :
  fresh_profiles (users_db app) →
  handle app req = (r, app') →
  fresh_profiles (users_db app') ∧
  conversation_memory (tutor_agent app')
    = conversation_memory (tutor_agent app) ∧
  ((chat_ok r = false ∧
    memory_manager (tutor_agent app') = memory_manager (tutor_agent app)) ∨
   (chat_ok r = true ∧ users_db app' = users_db app ∧
    ∃ d, memory_manager (tutor_agent app')
           = memory_manager (tutor_agent app) ++ [d] ∧
         metadata d !! "type" = Some (VStr "qa") ∧
         metadata d !! "level" = Some (VInt 1))).
Proof.
  intros Hfresh Hh. destruct req as [env msg | uuid now1 now2 n | uid | env topic query];
    simpl in Hh.
  - unfold chat in Hh.
    rewrite (user_level_of_fresh _ _ Hfresh) in Hh.
    destruct (generate_response env (tutor_agent app) (msg_user_id msg)
                (message msg) 1) as [[resp agent]|e] eqn:Hg;
      injection Hh as <- <-; simpl.
    + apply generate_response_Ok in Hg as (ctx & v & _ & _ & _ & ->). simpl.
      split; [done |]. split; [done |]. right.
      split; [done |]. split; [done |]. eexists. split; [reflexivity |].
      simpl. rewrite !user_metadata_other by done. unfold qa_metadata. split.
      * by rewrite lookup_insert_eq.
      * rewrite lookup_insert_ne by done. by rewrite lookup_singleton_eq.
    + split; [done |]. split; [done |]. by left.
  - injection Hh as <- <-. simpl.
    split; [by apply fresh_profiles_insert |]. split; [done |]. by left.
  - injection Hh as <- <-. split; [done |]. split; [done |]. by left.
  - injection Hh as <- <-. split; [done |]. split; [done |]. by left.
Qed.

Lemma handle_all_steps reqs : ∀ app rs app',
  fresh_profiles (users_db app) →
  handle_all app reqs = (rs, app') →
  fresh_profiles (users_db app') ∧
  conversation_memory (tutor_agent app')
    = conversation_memory (tutor_agent app) ∧
  ∃ new,
    memory_manager (tutor_agent app')
      = memory_manager (tutor_agent app) ++ new ∧
    length new = length (List.filter chat_ok rs) ∧
    ∀ d, d ∈ new →
      metadata d !! "type" = Some (VStr "qa") ∧
      metadata d !! "level" = Some (VInt 1).
Proof.
  induction reqs as [|req reqs IH]; intros app rs app' Hfresh Hh; simpl in Hh.
  - injection Hh as <- <-. split; [done |]. split; [done |].
    exists []. split; [by rewrite app_nil_r |]. split; [done |].
    intros d Hd. by apply not_elem_of_nil in Hd.
  - destruct (handle app req) as [r app1] eqn:H1.
    destruct (handle_all app1 reqs) as [rs' app2] eqn:H2.
    injection Hh as <- <-.
    destruct (handle_step _ _ _ _ Hfresh H1) as (Hfresh1 & Hw1 & Hcase).
    destruct (IH _ _ _ Hfresh1 H2) as (Hfresh2 & Hw2 & new & Hstore & Hlen & Hnew).
    split; [done |]. split; [congruence |].
    destruct Hcase as [[Hr Hs] | (Hr & _ & d & Hs & Ht & Hl)].
    + exists new. simpl. rewrite Hr, Hstore, Hs. done.
    + exists (d :: new). simpl. rewrite Hr, Hstore, Hs, <- app_assoc. simpl.
      split; [done |]. split; [by rewrite Hlen |].
      intros d' [-> | Hd']%elem_of_cons; [done | by apply Hnew].
Qed.

Lemma fresh_profiles_empty : fresh_profiles ∅.
Proof. intros uid p Hp. by rewrite lookup_empty in Hp. Qed.

(** X2.  No request changes a level.  After any sequence of requests to
    a process that started with an empty [users_db], every stored profile
    is under its own identifier with level 1, no completed lesson and no
    quiz score, so that [chat] passes level 1 to the agent for every
    [user_id], known or not. *)
Theorem every_user_stays_at_level_1 vectorstore (reqs : list request) :
  let app := (handle_all (startup vectorstore) reqs).2 in
  (∀ uid p, users_db app !! uid = Some p →
     user_id p = uid ∧ current_level p = 1 ∧ completed_lessons p = [] ∧
     quiz_scores p = ∅) ∧
  ∀ uid, user_level_of (users_db app) uid = 1.
Proof.
  simpl. destruct (handle_all (startup vectorstore) reqs) as [rs app] eqn:Hh.
  destruct (handle_all_steps reqs (startup vectorstore) rs app
              fresh_profiles_empty Hh) as (Hfresh & _).
  simpl. split.
  - intros uid p Hp. destruct (Hfresh uid p Hp) as (? & ? & ? & ? & _). done.
  - intros uid. by apply user_level_of_fresh.
Qed.

(** X3.  The store only grows, by one document per answered chat.  After
    any sequence of requests the vector store is the store the process
    started with, followed by as many documents as chat requests were
    answered with status 200; each of them is tagged [type = qa] and
    [level = 1]. *)
Theorem store_grows_by_answered_chats vectorstore (reqs : list request) :
  let rs := (handle_all (startup vectorstore) reqs).1 in
  let app := (handle_all (startup vectorstore) reqs).2 in
  ∃ new,
    memory_manager (tutor_agent app) = vectorstore ++ new ∧
    length new = length (List.filter chat_ok rs) ∧
    ∀ d, d ∈ new →
      metadata d !! "type" = Some (VStr "qa") ∧
      metadata d !! "level" = Some (VInt 1).
Proof.
  simpl. destruct (handle_all (startup vectorstore) reqs) as [rs app] eqn:Hh.
  destruct (handle_all_steps reqs (startup vectorstore) rs app
              fresh_profiles_empty Hh)
    as (_ & _ & new & Hstore & Hlen & Hnew).
  simpl. by exists new.
Qed.

(** X11.  The quiz endpoint never returns a question.  When the
    completion service answers, whatever its text, the endpoint answers
    200 with an empty quiz; when it raises, the endpoint answers 500 with
    the error text as detail. *)
Theorem quiz_endpoint_never_returns_questions env topic (query : gmap string Z) :
  match llm env (quiz_prompt topic (default 5 (query !! "difficulty"))
                   num_questions_default) with
  | Ok _ => Api.generate_quiz env topic query = Http200 []
  | Raise e => Api.generate_quiz env topic query = HTTPException 500 e
  end.
Proof.
  unfold Api.generate_quiz, TutorAgent.generate_quiz.
  by destruct (llm env _).
Qed.

(** X12.  A generated response is lost when it cannot be recorded.  When
    the retrieval and the completion succeed and the embedding of the
    exchange raises, [chat] answers 500 with the embedding error: the
    response is not returned, and the module-level objects are as
    before. *)
Theorem chat_discards_response_when_recording_fails
    env app msg ctx resp e :
  MemoryManager.get_user_context env (memory_manager (tutor_agent app))
    (msg_user_id msg) (message msg) 5 = Ok ctx →
  llm env (formatted_prompt (tutor_agent app) ctx (message msg)
             (user_level_of (users_db app) (msg_user_id msg))) = Ok resp →
  embed env (interaction_text (message msg) resp) = Raise e →
  chat env app msg = (HTTPException 500 e, app).
Proof.
  intros Hc Hl He. unfold chat, generate_response.
  rewrite Hc. simpl. rewrite Hl. simpl.
  unfold add_user_interaction, add_texts. simpl. rewrite He. done.
Qed.

(** The theorem at a backend whose embedding service fails on stored
    exchanges. *)
Lemma chat_discards_response_when_recording_fails_witness :
  chat Example.env_no_record (startup [])
    {| message := "Explain pointers"; msg_user_id := "u1"; context := None |}
  = (HTTPException 500 "embedding service unavailable", startup []).
Proof.
  apply (chat_discards_response_when_recording_fails Example.env_no_record
           (startup [])
           {| message := "Explain pointers"; msg_user_id := "u1";
              context := None |}
           [] "A pointer stores an address.").
  - reflexivity.
  - reflexivity.
  - reflexivity.
Defined.

End ApiMore.

(** ** Histories of writes *)

Section HistoryMore.
Import Chroma MemoryManager.

Lemma record_grows env vectorstore op vectorstore' d :
  record env vectorstore op = Ok vectorstore' →
  d ∈ vectorstore → d ∈ vectorstore'.
Proof.
  intros (d' & -> & _)%record_origin Hd. apply elem_of_app. by left.
Qed.

(** Nothing that was written is ever dropped. *)
Lemma replay_contains env ops : ∀ vectorstore vectorstore',
  replay env vectorstore ops = Ok vectorstore' →
  (∀ d, d ∈ vectorstore → d ∈ vectorstore') ∧
  ∀ op, op ∈ ops → ∃ d, d ∈ vectorstore' ∧ origin d op.
Proof.
  induction ops as [|op ops IH]; simpl; intros vs vs' Hr.
  - injection Hr as ->. split; [done |].
    intros op Hop. by apply not_elem_of_nil in Hop.
  - apply bind_Ok in Hr as (vs1 & Hop & Hr).
    destruct (IH _ _ Hr) as [Hkeep Hops]. split.
    + intros d Hd. apply Hkeep. by apply (record_grows _ _ _ _ _ Hop).
    + intros op' [-> | Hin]%elem_of_cons; [| by apply Hops].
      destruct (record_origin _ _ _ _ Hop) as (d & -> & Ho).
      exists d. split; [| done].
      apply Hkeep, elem_of_app. right. by apply list_elem_of_singleton.
Qed.

(** X13.  What a user retrieves is what was recorded for that user.  Take
    any history of writes ([add_user_interaction] and
    [add_lesson_content]) on an empty store in which no write passes a
    [user_id] key of its own in its metadata.  Every text that
    [get_user_context] returns for a user was recorded by
    [add_user_interaction] for that user, never for another user and
    never as lesson content; and when [k] is at least the number of the
    user's documents, every text recorded for the user is returned. *)
Theorem retrieval_is_own_records
    env (ops : list record_op) vectorstore env' user_id query k texts :
  (∀ u t md, UserInteraction u t md ∈ ops → md !! "user_id" = None) →
  replay env [] ops = Ok vectorstore →
  get_user_context env' vectorstore user_id query k = Ok texts →
  (∀ text, text ∈ texts → ∃ md, UserInteraction user_id text md ∈ ops) ∧
  ((length (List.filter (matches (user_filter user_id)) vectorstore) ≤ k)%nat →
   ∀ text md, UserInteraction user_id text md ∈ ops → text ∈ texts).
Proof.
  intros Hfresh Hr Hc. split.
  - intros text Ht.
    destruct (get_user_context_scope env' _ _ _ _ _ _ Hc Ht)
      as (d & Hd & <- & Hu).
    destruct (replay_origin env _ _ _ _ Hr Hd) as [Hnil | (op & Hop & Ho)];
      [by apply not_elem_of_nil in Hnil |].
    destruct op as [u t md | l c]; simpl in Ho; destruct Ho as [<- Hmd].
    + rewrite Hmd, (user_metadata_fresh u md) in Hu by eauto.
      injection Hu as ->. by exists md.
    + by rewrite Hmd, lesson_metadata_no_user in Hu.
  - intros Hk text md Hop.
    destruct (replay_contains _ _ _ _ Hr) as [_ Hops].
    destruct (Hops _ Hop) as (d & Hd & <- & Hmd).
    assert (Hq : ∃ q, embed env' query = Ok q).
    { unfold get_user_context, get_user_results, similarity_search in Hc.
      destruct (embed env' query) as [q|e]; [by exists q | discriminate]. }
    destruct Hq as [q Hq].
    destruct (get_user_context_all env' vectorstore user_id query k q d Hq Hk Hd)
      as (texts' & Hc' & Hin).
    + rewrite Hmd. apply user_metadata_fresh. by eapply Hfresh.
    + rewrite Hc in Hc'. by injection Hc' as <-.
Qed.

(** The theorem at a history of three writes: alice, a lesson, bob. *)
Lemma retrieval_is_own_records_witness :
  get_user_context Example.env Example.history_store "alice" "abc" 5
    = Ok ["alice's note"] ∧
  (∃ md, UserInteraction "alice" "alice's note" md ∈ Example.history) ∧
  "alice's note" ∈ ["alice's note"].
Proof.
  destruct (retrieval_is_own_records Example.env Example.history
              Example.history_store Example.env "alice" "abc" 5
              ["alice's note"]) as [Hsound Hcomplete].
  - intros u t md Hin. unfold Example.history in Hin.
    apply elem_of_cons in Hin as [Heq | Hin];
      [injection Heq as -> -> ->; vm_compute; reflexivity |].
    apply elem_of_cons in Hin as [Heq | Hin]; [discriminate |].
    apply elem_of_cons in Hin as [Heq | Hin];
      [injection Heq as -> -> ->; vm_compute; reflexivity |].
    by apply not_elem_of_nil in Hin.
  - reflexivity.
  - vm_compute. reflexivity.
  - split; [vm_compute; reflexivity |]. split.
    + apply Hsound. left.
    + apply (Hcomplete ltac:(vm_compute; lia) "alice's note" ∅). left.
Defined.

End HistoryMore.
